(** * localizer: the service event classifier and the proxier's query surface

    A shallow embedding of [internal/proxier/handlers.go] (the loop
    [serviceProcessor] that turns service notifications into port-forward
    requests) and of [internal/proxier/proxy.go] ([Start] and [List]).

    Go strings are [string], slices are [list], pointers that may be nil are
    [option], the Go map of the worker is a [gmap], and the channel
    [requester] is the list of values sent on it, in sending order. *)

From Stdlib Require Import ZArith.
From stdpp Require Import base strings list gmap.

Local Open Scope string_scope.

(** ** The Kubernetes API objects the code reads (k8s.io/api/core/v1) *)

Module ServicePort.
Record t := mk { Name : string; Port : Z (* int32 *) }.
End ServicePort.

Module ServiceSpec.
Record t := mk { Ports : list ServicePort.t; ClusterIP : string }.
End ServiceSpec.

Module Service.
Record t := mk { Name : string; Namespace : string; Spec : ServiceSpec.t }.
End Service.

Module ObjectReference.
Record t := mk { Kind : string; Namespace : string; Name : string }.
End ObjectReference.

Module EndpointAddress.
Record t := mk { IP : string; TargetRef : option ObjectReference.t }.
End EndpointAddress.

Module EndpointSubset.
Record t := mk {
  Addresses : list EndpointAddress.t;
  NotReadyAddresses : list EndpointAddress.t
}.
End EndpointSubset.

Module Endpoints.
Record t := mk { Subsets : list EndpointSubset.t }.
End Endpoints.

(** A Go [error] value, identified by its message. *)
Definition error := string.

(** [kubernetes.Interface], as far as [serviceProcessor] uses it:
    [k.CoreV1().Endpoints(namespace).Get(ctx, name, opts)].  The call may
    change the client (a cache, a clock, a fake's call log), so it returns
    the client it leaves behind. *)
Class Interface (K : Type) := {
  CoreV1_Endpoints_Get :
    K -> string (* namespace *) -> string (* name *) -> K * (error + Endpoints.t)
}.

(** ** The data model of package proxier *)

Definition EventType := string.
Definition EventAdded : EventType := "added".
Definition EventDeleted : EventType := "deleted".

Module ServiceEvent.
Record t := mk { EventType : EventType; Service : Service.t }.
End ServiceEvent.

Definition ServiceType := string.

(** Modelled from the spec: the two [ServiceType] constants are declared in
    a file of the package that is not part of the sources at hand.  The
    identity starts with [Type: ""], and the spec makes every service
    without the sentinel address Ordinary, so the standard type is the empty
    string. *)
Definition ServiceTypeStandard : ServiceType := "".

(** Modelled from the spec: the type of a Decentralized (headless) service,
    a constant declared next to [ServiceTypeStandard] and different from
    it. *)
Definition ServiceTypeStatefulset : ServiceType := "statefulset".

(** The structs below are declared in the same absent file; the code at
    hand builds them field by field, which fixes their fields.  [PodInfo] is
    built positionally, pod name then pod namespace, the order the spec
    gives for an EndpointTarget. *)
Module ServiceInfo.
Record t := mk { Name : string; Namespace : string; Type_ : ServiceType }.
End ServiceInfo.

Module PodInfo.
Record t := mk { Name : string; Namespace : string }.
End PodInfo.

Module CreatePortForwardRequest.
Record t := mk {
  Service : ServiceInfo.t;
  Ports : list Z;
  Endpoint : option PodInfo.t;
  Hostnames : list string
}.
End CreatePortForwardRequest.

Module DeletePortForwardRequest.
Record t := mk { Service : ServiceInfo.t }.
End DeletePortForwardRequest.

(** A struct of two pointers, of which the code sets one. *)
Module PortForwardRequest.
Record t := mk {
  CreatePortForwardRequest : option CreatePortForwardRequest.t;
  DeletePortForwardRequest : option DeletePortForwardRequest.t
}.
End PortForwardRequest.

(** ** handlers.go *)

(** [int(p.Port)]: an int32 widened to int keeps its value. *)
Definition int (x : Z) : Z := x.

(** [fmt.Sprintf("%s.%s", a, b)] and the three longer formats. *)
Definition Sprintf_dot (a b : string) : string := a +:+ "." +:+ b.
Definition Sprintf_svc (a b : string) : string := a +:+ "." +:+ b +:+ ".svc".
Definition Sprintf_cluster (a b : string) : string :=
  a +:+ "." +:+ b +:+ ".svc.cluster".
Definition Sprintf_local (a b : string) : string :=
  a +:+ "." +:+ b +:+ ".svc.cluster.local".

(** Lines 75-78: the declared ports, index by index. *)
Definition collectPorts (ps : list ServicePort.t) : list Z :=
  map (fun p => int (ServicePort.Port p)) ps.

(** Lines 58-62: the identity as first built. *)
Definition newInfo (svc : Service.t) : ServiceInfo.t :=
  ServiceInfo.mk (Service.Name svc) (Service.Namespace svc) "".

(** Lines 69-71. *)
Definition setType (svc : Service.t) (info : ServiceInfo.t) : ServiceInfo.t :=
  if decide (ServiceSpec.ClusterIP (Service.Spec svc) = "None")
  then ServiceInfo.mk (ServiceInfo.Name info) (ServiceInfo.Namespace info)
                      ServiceTypeStatefulset
  else info.

(** Lines 82-94: the request sent for a standard service. *)
Definition standardRequest (info : ServiceInfo.t) (ports : list Z)
  : PortForwardRequest.t :=
  PortForwardRequest.mk
    (Some (CreatePortForwardRequest.mk info ports None
       [ ServiceInfo.Name info;
         Sprintf_dot (ServiceInfo.Name info) (ServiceInfo.Namespace info);
         Sprintf_svc (ServiceInfo.Name info) (ServiceInfo.Namespace info);
         Sprintf_cluster (ServiceInfo.Name info) (ServiceInfo.Namespace info);
         Sprintf_local (ServiceInfo.Name info) (ServiceInfo.Namespace info) ]))
    None.

(** Lines 112-126: the request sent for one pod of a statefulset service. *)
Definition podRequest (info : ServiceInfo.t) (ports : list Z)
    (ref : ObjectReference.t) : PortForwardRequest.t :=
  let name := Sprintf_dot (ObjectReference.Name ref) (ServiceInfo.Name info) in
  PortForwardRequest.mk
    (Some (CreatePortForwardRequest.mk info ports
       (Some (PodInfo.mk (ObjectReference.Name ref) (ObjectReference.Namespace ref)))
       [ ServiceInfo.Name info;
         Sprintf_dot name (ServiceInfo.Namespace info);
         Sprintf_svc name (ServiceInfo.Namespace info);
         Sprintf_cluster name (ServiceInfo.Namespace info);
         Sprintf_local name (ServiceInfo.Namespace info) ]))
    None.

(** Lines 103-127: the inner loop over the addresses of one subset. *)
Fixpoint forAddresses (info : ServiceInfo.t) (ports : list Z)
    (addrs : list EndpointAddress.t) : list PortForwardRequest.t :=
  match addrs with
  | [] => []
  | e :: rest =>
      match EndpointAddress.TargetRef e with
      | None => forAddresses info ports rest
      | Some ref =>
          if decide (ObjectReference.Kind ref = "Pod")
          then podRequest info ports ref :: forAddresses info ports rest
          else forAddresses info ports rest
      end
  end.

(** Lines 102-128: the outer loop over the subsets. *)
Fixpoint forSubsets (info : ServiceInfo.t) (ports : list Z)
    (subsets : list EndpointSubset.t) : list PortForwardRequest.t :=
  match subsets with
  | [] => []
  | s :: rest =>
      forAddresses info ports (EndpointSubset.Addresses s)
        ++ forSubsets info ports rest
  end.

(** Line 131-135. *)
Definition deleteRequest (info : ServiceInfo.t) : PortForwardRequest.t :=
  PortForwardRequest.mk None (Some (DeletePortForwardRequest.mk info)).

(** One turn of the loop on a received event (lines 57-137): the client it
    leaves behind and the requests sent on [requester], in order.  Each
    [continue] ends the turn with what was sent so far.  The event carries a
    service (the informer callbacks of [Start] never pass nil), and every
    send is taken by the reader of the channel. *)
Definition processEvent `{Interface K} (k : K) (s : ServiceEvent.t)
  : K * list PortForwardRequest.t :=
  let svc := ServiceEvent.Service s in
  let info := newInfo svc in
  if decide (ServiceInfo.Name info = "kubernetes") then (k, [])
  else
    let info := setType svc info in
    if decide (ServiceEvent.EventType s = EventAdded) then
      let ports := collectPorts (ServiceSpec.Ports (Service.Spec svc)) in
      if decide (ServiceInfo.Type_ info = ServiceTypeStandard) then
        (k, [standardRequest info ports])
      else if decide (ServiceInfo.Type_ info = ServiceTypeStatefulset) then
        match CoreV1_Endpoints_Get k (ServiceInfo.Namespace info)
                                     (ServiceInfo.Name info) with
        | (k', inl _) => (k', [])
        | (k', inr endpoints) =>
            (k', forSubsets info ports (Endpoints.Subsets endpoints))
        end
      else (k, [])
    else if decide (ServiceEvent.EventType s = EventDeleted) then
      (k, [deleteRequest info])
    else (k, []).

(** What the [select] of one turn picks: the context is done, or an event
    arrives. *)
Inductive SelectCase :=
  | CtxDone
  | Recv (s : ServiceEvent.t).

(** The state a run of [serviceProcessor] ends in: the client, everything
    sent on [requester], and whether [doneChan] was closed (the function
    returned) or the loop is still waiting in its [select]. *)
Module Run.
Record t (K : Type) := mk {
  client : K;
  sent : list PortForwardRequest.t;
  doneClosed : bool
}.
Arguments mk {K}.
Arguments client {K}.
Arguments sent {K}.
Arguments doneClosed {K}.
End Run.

(** Lines 51-139, run against the choices its [select] makes. *)
Fixpoint serviceProcessor `{Interface K} (k : K) (sel : list SelectCase)
  : Run.t K :=
  match sel with
  | [] => Run.mk k [] false
  | CtxDone :: _ => Run.mk k [] true
  | Recv s :: rest =>
      let '(k', out) := processEvent k s in
      let r := serviceProcessor k' rest in
      Run.mk (Run.client r) (out ++ Run.sent r) (Run.doneClosed r)
  end.

(** A fake client in the manner of client-go's fake clientset: a store of
    Endpoints objects keyed by namespace and name, and a log of the lookups
    made.  A lookup of an object that is not stored fails. *)
Module FakeClientset.
Record t := mk {
  tracker : gmap (string * string) Endpoints.t;
  actions : list (string * string)
}.
End FakeClientset.

#[export] Instance FakeClientset_Interface : Interface FakeClientset.t := {
  CoreV1_Endpoints_Get k namespace name :=
    let k' := FakeClientset.mk (FakeClientset.tracker k)
                (FakeClientset.actions k ++ [(namespace, name)]) in
    match FakeClientset.tracker k !! (namespace, name) with
    | Some e => (k', inr e)
    | None => (k', inl ("endpoints not found: " +:+ name))
    end
}.

(** ** proxy.go *)

#[export] Instance ServiceInfo_eq_dec : EqDecision ServiceInfo.t.
Proof. solve_decision. Defined.

#[export] Instance ServiceInfo_countable : Countable ServiceInfo.t.
Proof.
  refine (inj_countable'
    (fun i => (ServiceInfo.Name i, ServiceInfo.Namespace i, ServiceInfo.Type_ i))
    (fun '(n, ns, ty) => ServiceInfo.mk n ns ty) _).
  by intros [].
Defined.

(** Modelled from the spec: the entry type of the worker's table is declared
    in a file that is not part of the sources at hand.  The spec's
    TunnelEntry is an owning service identity, an optional EndpointTarget and
    a status; [List] reads the field [Status] only.  The status type itself
    is a parameter [S]. *)
Module PortForwardConnection.
Record t (S : Type) := mk {
  Service : ServiceInfo.t;
  Pod : option PodInfo.t;
  Status : S
}.
Arguments mk {S}.
Arguments Service {S}.
Arguments Pod {S}.
Arguments Status {S}.
End PortForwardConnection.

(** Modelled from the spec: of the worker, [List] uses the map
    [portForwards] from service identity to the sequence of entries. *)
Module worker.
Record t (S : Type) := mk {
  portForwards : gmap ServiceInfo.t (list (PortForwardConnection.t S))
}.
Arguments mk {S}.
Arguments portForwards {S}.
End worker.

Module ServiceStatus.
Record t (S : Type) := mk {
  ServiceInfo : ServiceInfo.t;
  Statuses : list S
}.
Arguments mk {S}.
Arguments ServiceInfo {S}.
Arguments Statuses {S}.
End ServiceStatus.

(** [worker] is a pointer, nil until [Start] sets it. *)
Module Proxier.
Record t (K RestConfig FieldLogger S : Type) := mk {
  k : K;
  rest : RestConfig;
  log : FieldLogger;
  worker : option (worker.t S)
}.
Arguments mk {K RestConfig FieldLogger S}.
Arguments k {K RestConfig FieldLogger S}.
Arguments rest {K RestConfig FieldLogger S}.
Arguments log {K RestConfig FieldLogger S}.
Arguments worker {K RestConfig FieldLogger S}.
End Proxier.

(** How a call ends: it returns, or it panics (a nil dereference, an index
    out of range). *)
Inductive outcome (A : Type) :=
  | Returns (a : A)
  | Panics.
Arguments Returns {A}.
Arguments Panics {A}.

Definition errNotRunning : error := "proxier not running".

Section Orchestrator.
Context {K RestConfig FieldLogger S : Type}.
(** The zero value of the status type, with which [make] fills a slice. *)
Variable zeroStatus : S.

Local Abbreviation Proxier := (Proxier.t K RestConfig FieldLogger S).

(** Lines 49-55. *)
Definition NewProxier (k : K) (kconf : RestConfig) (log : FieldLogger)
  : Proxier :=
  Proxier.mk k kconf log None.

(** Lines 105-107: [connStatuses[i] = conns[i].Status] for the indices
    [idx], each access checked against the length of its slice. *)
Fixpoint copyStatuses (conns : list (PortForwardConnection.t S))
    (idx : list nat) (connStatuses : list S) : outcome (list S) :=
  match idx with
  | [] => Returns connStatuses
  | i :: rest =>
      match conns !! i with
      | None => Panics
      | Some c =>
          if decide (i < length connStatuses)
          then copyStatuses conns rest
                 (<[i := PortForwardConnection.Status c]> connStatuses)
          else Panics
      end
  end.

(** Lines 104-107 for one key.  A key without an entry reads as the nil
    slice. *)
Definition connStatusesOf (w : worker.t S) (serv : ServiceInfo.t)
  : outcome (list S) :=
  let conns := default [] (worker.portForwards w !! serv) in
  copyStatuses conns (seq 0 (length conns))
    (replicate (length conns) zeroStatus).

(** Lines 103-113 over the keys in the order the [range] visits them. *)
Fixpoint listLoop (w : worker.t S) (keys : list ServiceInfo.t)
    (statuses : list (ServiceStatus.t S)) : outcome (list (ServiceStatus.t S)) :=
  match keys with
  | [] => Returns statuses
  | serv :: rest =>
      match connStatusesOf w serv with
      | Panics => Panics
      | Returns connStatuses =>
          listLoop w rest (statuses ++ [ServiceStatus.mk serv connStatuses])
      end
  end.

(** Lines 97-116.  The nil slice and the empty slice are both [[]]; the
    returned error is [None] for nil.  Go leaves the order of a [range]
    over a map open; the order of [map_to_list] is one such order. *)
Definition List (p : Proxier)
  : outcome (list (ServiceStatus.t S) * option error) :=
  match Proxier.worker p with
  | None => Returns ([], Some errNotRunning)
  | Some w =>
      match listLoop w (map fst (map_to_list (worker.portForwards w))) [] with
      | Panics => Panics
      | Returns statuses => Returns (statuses, None)
      end
  end.

(** Modelled from the spec: [NewPortForwarder] is defined in a file that is
    not part of the sources at hand.  It constructs the transport and the
    state table, or fails with a construction error; of what it returns,
    the worker is what [Start] stores. *)
Definition NewPortForwarderResult : Type := error + worker.t S.

(** Lines 59-63: the setup phase of [Start], given what [NewPortForwarder]
    returned.  On an error [Start] returns it at once. *)
Definition Start_setup (p : Proxier) (r : NewPortForwarderResult)
  : Proxier * option error :=
  match r with
  | inl err => (p, Some err)
  | inr w =>
      (Proxier.mk (Proxier.k p) (Proxier.rest p) (Proxier.log p) (Some w), None)
  end.

(** Where a call of [Start] stands. *)
Inductive StartPc :=
  | NotCalled
  | WaitHandlerDone                 (* line 91, blocked on handlerDoneChan *)
  | WaitPfDone                      (* line 92, blocked on pfdoneChan *)
  | Returned (err : option error).  (* line 61 or line 94 *)

(** The proxier over time.  [Start] runs its setup and then waits for the
    two done channels; meanwhile and afterwards the worker, which the
    proxier shares by pointer, may change its table; a caller may call
    [Start] again once it has returned. *)
Inductive step : Proxier * StartPc -> Proxier * StartPc -> Prop :=
  | step_setup p r p' err :
      Start_setup p r = (p', Some err) ->
      step (p, NotCalled) (p', Returned (Some err))
  | step_running p r p' :
      Start_setup p r = (p', None) ->
      step (p, NotCalled) (p', WaitHandlerDone)
  | step_handler_done p :
      step (p, WaitHandlerDone) (p, WaitPfDone)
  | step_pf_done p :
      step (p, WaitPfDone) (p, Returned None)
  | step_worker p pc w w' :
      Proxier.worker p = Some w ->
      step (p, pc)
           (Proxier.mk (Proxier.k p) (Proxier.rest p) (Proxier.log p) (Some w'),
            pc)
  | step_again p err :
      step (p, Returned err) (p, NotCalled).

End Orchestrator.

(** ** proxy.go, the informer callbacks *)

(** What the informer hands to a callback as an [interface{}]: a service, or
    a value of some other dynamic type (on a delete the informer may pass
    its tombstone, [cache.DeletedFinalStateUnknown]). *)
Inductive Object :=
  | ServiceObject (svc : Service.t)
  | ForeignObject (typeName : string).

(** The type assertion of [obj] to a service pointer: in its form with one
    result it panics when the dynamic type is another one. *)
Definition assertService (obj : Object) : outcome Service.t :=
  match obj with
  | ServiceObject svc => Returns svc
  | ForeignObject _ => Panics
  end.

(** Lines 72-78: the event [AddFunc] sends on [serviceChan]. *)
Definition AddFunc (obj : Object) : outcome ServiceEvent.t :=
  match assertService obj with
  | Returns svc => Returns (ServiceEvent.mk EventAdded svc)
  | Panics => Panics
  end.

(** Lines 79-85: the event [DeleteFunc] sends on [serviceChan]. *)
Definition DeleteFunc (obj : Object) : outcome ServiceEvent.t :=
  match assertService obj with
  | Returns svc => Returns (ServiceEvent.mk EventDeleted svc)
  | Panics => Panics
  end.

(** What the informer reports about the store of services. *)
Inductive Notification :=
  | OnAdd (obj : Object)
  | OnUpdate (oldObj newObj : Object)
  | OnDelete (obj : Object).

(** Lines 71-86: the [cache.ResourceEventHandlerFuncs] literal sets
    [AddFunc] and [DeleteFunc] and leaves [UpdateFunc] nil, and a nil
    function of that struct is not called.  The result is what one
    notification sends on [serviceChan]. *)
Definition onNotification (n : Notification) : outcome (list ServiceEvent.t) :=
  match n with
  | OnAdd obj =>
      match AddFunc obj with
      | Returns e => Returns [e]
      | Panics => Panics
      end
  | OnUpdate _ _ => Returns []
  | OnDelete obj =>
      match DeleteFunc obj with
      | Returns e => Returns [e]
      | Panics => Panics
      end
  end.

(** The informer goroutine calling the callbacks for one notification after
    the other: the events sent on [serviceChan], in order, and whether a
    callback panicked, which ends the delivery. *)
Fixpoint deliver (ns : list Notification) : list ServiceEvent.t * bool :=
  match ns with
  | [] => ([], false)
  | n :: rest =>
      match onNotification n with
      | Panics => ([], true)
      | Returns evs =>
          let '(more, panicked) := deliver rest in ((evs ++ more)%list, panicked)
      end
  end.

(** ** Vocabulary of the statements *)

(** The five progressively qualified names of a root in a namespace. *)
Definition progressive (root ns : string) : list string :=
  [ root;
    root +:+ "." +:+ ns;
    root +:+ "." +:+ ns +:+ ".svc";
    root +:+ "." +:+ ns +:+ ".svc.cluster";
    root +:+ "." +:+ ns +:+ ".svc.cluster.local" ].

(** The identity a notification is about: name, namespace, and the topology
    read off the cluster address. *)
Definition identityOf (svc : Service.t) : ServiceInfo.t :=
  ServiceInfo.mk (Service.Name svc) (Service.Namespace svc)
    (if decide (ServiceSpec.ClusterIP (Service.Spec svc) = "None")
     then ServiceTypeStatefulset else ServiceTypeStandard).

(** The declared port numbers of a service. *)
Definition declaredPorts (svc : Service.t) : list Z :=
  map ServicePort.Port (ServiceSpec.Ports (Service.Spec svc)).

(** The back-references of the ready addresses that point to a pod, subset
    by subset. *)
Definition podTargets (eps : Endpoints.t) : list ObjectReference.t :=
  filter (fun ref => ObjectReference.Kind ref = "Pod")
    (omap EndpointAddress.TargetRef
       (concat (map EndpointSubset.Addresses (Endpoints.Subsets eps)))).

(** The identity a request carries, whichever of its two fields is set. *)
Definition requestService (r : PortForwardRequest.t) : option ServiceInfo.t :=
  match PortForwardRequest.CreatePortForwardRequest r,
        PortForwardRequest.DeletePortForwardRequest r with
  | Some c, _ => Some (CreatePortForwardRequest.Service c)
  | None, Some d => Some (DeletePortForwardRequest.Service d)
  | None, None => None
  end.

(** A create request with the given content. *)
Definition createIntent (info : ServiceInfo.t) (ports : list Z)
    (endpoint : option PodInfo.t) (hostnames : list string)
  : PortForwardRequest.t :=
  PortForwardRequest.mk
    (Some (CreatePortForwardRequest.mk info ports endpoint hostnames)) None.

(** A delete request for the given identity. *)
Definition deleteIntent (info : ServiceInfo.t) : PortForwardRequest.t :=
  PortForwardRequest.mk None (Some (DeletePortForwardRequest.mk info)).

(** The fan-out with every name rooted at the pod: one create request per pod target, each
    with the five progressively qualified names of the root pod.service. *)
Definition rootedFanOut (svc : Service.t) (eps : Endpoints.t)
  : list PortForwardRequest.t :=
  map (fun ref =>
         createIntent (identityOf svc) (declaredPorts svc)
           (Some (PodInfo.mk (ObjectReference.Name ref)
                             (ObjectReference.Namespace ref)))
           (progressive (ObjectReference.Name ref +:+ "." +:+ Service.Name svc)
                        (Service.Namespace svc)))
      (podTargets eps).

(** ** Sample notifications *)

Definition web : Service.t :=
  Service.mk "web" "default"
    (ServiceSpec.mk [ServicePort.mk "http" 80; ServicePort.mk "https" 443]
                    "10.0.0.1").

Definition db : Service.t :=
  Service.mk "db" "ns" (ServiceSpec.mk [ServicePort.mk "pg" 5432] "None").

Definition db_endpoints : Endpoints.t :=
  Endpoints.mk
    [ EndpointSubset.mk
        [ EndpointAddress.mk "10.1.0.4"
            (Some (ObjectReference.mk "Pod" "ns" "pod-0"));
          EndpointAddress.mk "10.1.0.5" None;
          EndpointAddress.mk "10.1.0.6"
            (Some (ObjectReference.mk "Node" "" "node-a")) ]
        [ EndpointAddress.mk "10.1.0.7"
            (Some (ObjectReference.mk "Pod" "ns" "pod-9")) ];
      EndpointSubset.mk
        [ EndpointAddress.mk "10.1.0.8"
            (Some (ObjectReference.mk "Pod" "ns" "pod-1")) ]
        [] ].

(** A headless service that bears the reserved name, outside the default
    namespace. *)
Definition kube_headless : Service.t :=
  Service.mk "kubernetes" "tools"
    (ServiceSpec.mk [ServicePort.mk "https" 443] "None").

Definition cluster : FakeClientset.t :=
  FakeClientset.mk
    (<[("ns", "db") := db_endpoints]>
       (<[("tools", "kubernetes") := db_endpoints]> ∅))
    [].

Definition emptyCluster : FakeClientset.t := FakeClientset.mk ∅ [].

(** The two clients after one lookup of the endpoints of db. *)
Definition clusterAsked : FakeClientset.t :=
  FakeClientset.mk (FakeClientset.tracker cluster) [("ns", "db")].

Definition emptyClusterAsked : FakeClientset.t :=
  FakeClientset.mk ∅ [("ns", "db")].

(** A table with one entry for web and two for db, the same table after
    the entries of db are removed, and a proxier before and after setup. *)
Definition sampleWorker : worker.t string :=
  worker.mk
    (<[identityOf db :=
         [ PortForwardConnection.mk (identityOf db)
             (Some (PodInfo.mk "pod-0" "ns")) "running";
           PortForwardConnection.mk (identityOf db)
             (Some (PodInfo.mk "pod-1" "ns")) "waiting" ]]>
       (<[identityOf web :=
            [PortForwardConnection.mk (identityOf web) None "running"]]> ∅)).

Definition sampleWorkerLater : worker.t string :=
  worker.mk
    (<[identityOf web :=
         [PortForwardConnection.mk (identityOf web) None "running"]]> ∅).

Definition freshProxier : Proxier.t FakeClientset.t unit unit string :=
  NewProxier cluster tt tt.

Definition startedProxier : Proxier.t FakeClientset.t unit unit string :=
  Proxier.mk cluster tt tt (Some sampleWorker).

Definition laterProxier : Proxier.t FakeClientset.t unit unit string :=
  Proxier.mk cluster tt tt (Some sampleWorkerLater).

(** ** The classifier, one notification at a time *)

Lemma append_assoc (a b c : string) : (a +:+ b) +:+ c = a +:+ b +:+ c.
Proof.
  induction a as [|x a IH]; [done|].
  change (String x ((a +:+ b) +:+ c) = String x (a +:+ b +:+ c)).
  by rewrite IH.
Qed.

Section Classifier.
Context `{Interface K}.

Lemma setType_identity (svc : Service.t) :
  setType svc (newInfo svc) = identityOf svc.
Proof.
  unfold setType, newInfo, identityOf, ServiceTypeStandard.
  by case_decide.
Qed.

Lemma collectPorts_declared (svc : Service.t) :
  collectPorts (ServiceSpec.Ports (Service.Spec svc)) = declaredPorts svc.
Proof. reflexivity. Qed.

Lemma forAddresses_filter info ports (addrs : list EndpointAddress.t) :
  forAddresses info ports addrs =
  map (podRequest info ports)
    (filter (fun ref => ObjectReference.Kind ref = "Pod")
       (omap EndpointAddress.TargetRef addrs)).
Proof.
  induction addrs as [|e rest IH]; [done|].
  cbn [forAddresses omap list_omap].
  destruct (EndpointAddress.TargetRef e) as [ref|]; [|exact IH].
  rewrite filter_cons. case_decide; cbn [map]; by rewrite IH.
Qed.

Lemma forSubsets_podTargets info ports (eps : Endpoints.t) :
  forSubsets info ports (Endpoints.Subsets eps) =
  map (podRequest info ports) (podTargets eps).
Proof.
  unfold podTargets. destruct eps as [subsets]. cbn [Endpoints.Subsets].
  induction subsets as [|s rest IH]; [done|].
  cbn [forSubsets map concat].
  rewrite omap_app, filter_app, map_app, IH.
  by rewrite forAddresses_filter.
Qed.

(** The turn of the loop, by cases on what the notification is. *)
Lemma processEvent_reserved (k : K) (s : ServiceEvent.t) :
  Service.Name (ServiceEvent.Service s) = "kubernetes" ->
  processEvent k s = (k, []).
Proof.
  intros Hname. unfold processEvent. cbn [newInfo ServiceInfo.Name].
  by rewrite decide_True.
Qed.

Lemma processEvent_added (k : K) (s : ServiceEvent.t) :
  Service.Name (ServiceEvent.Service s) <> "kubernetes" ->
  ServiceEvent.EventType s = EventAdded ->
  processEvent k s =
  let svc := ServiceEvent.Service s in
  if decide (ServiceSpec.ClusterIP (Service.Spec svc) = "None") then
    match CoreV1_Endpoints_Get k (Service.Namespace svc) (Service.Name svc) with
    | (k', inl _) => (k', [])
    | (k', inr eps) =>
        (k', map (podRequest (identityOf svc) (declaredPorts svc))
               (podTargets eps))
    end
  else (k, [standardRequest (identityOf svc) (declaredPorts svc)]).
Proof.
  intros Hname Hadded. unfold processEvent.
  cbn [newInfo ServiceInfo.Name].
  rewrite decide_False by done.
  rewrite (decide_True _ _ Hadded).
  rewrite setType_identity, collectPorts_declared.
  cbn zeta. unfold identityOf.
  destruct (decide (ServiceSpec.ClusterIP _ = "None")) as [Hip|Hip];
    cbn [ServiceInfo.Type_ ServiceInfo.Name ServiceInfo.Namespace].
  - rewrite decide_False by discriminate. rewrite decide_True by done.
    destruct (CoreV1_Endpoints_Get _ _ _) as [k' [err|eps]]; [done|].
    by rewrite forSubsets_podTargets.
  - by rewrite decide_True.
Qed.

Lemma processEvent_deleted (k : K) (s : ServiceEvent.t) :
  Service.Name (ServiceEvent.Service s) <> "kubernetes" ->
  ServiceEvent.EventType s = EventDeleted ->
  processEvent k s = (k, [deleteRequest (identityOf (ServiceEvent.Service s))]).
Proof.
  intros Hname Hdeleted. unfold processEvent.
  cbn [newInfo ServiceInfo.Name].
  rewrite decide_False by done.
  rewrite setType_identity. rewrite Hdeleted.
  rewrite decide_False by done. by rewrite decide_True.
Qed.

Lemma serviceProcessor_app (k : K) (pre post : list SelectCase) :
  Forall (fun c => c <> CtxDone) pre ->
  let r := serviceProcessor k pre in
  let r' := serviceProcessor (Run.client r) post in
  serviceProcessor k (pre ++ post) =
  Run.mk (Run.client r') (Run.sent r ++ Run.sent r') (Run.doneClosed r').
Proof.
  revert k. induction pre as [|c pre IH]; intros k Hpre.
  - cbn. by destruct (serviceProcessor k post).
  - apply Forall_cons in Hpre as [Hc Hpre].
    destruct c as [|s]; [done|].
    cbn [app serviceProcessor].
    destruct (processEvent k s) as [k1 out].
    cbn zeta in IH |- *. rewrite (IH k1 Hpre).
    cbn [Run.client Run.sent Run.doneClosed]. by rewrite app_assoc.
Qed.

End Classifier.

Lemma serviceProcessor_skip `{Interface K} (s : ServiceEvent.t)
    (pre post : list SelectCase) :
  (forall k : K, processEvent k s = (k, [])) ->
  forall k : K,
    serviceProcessor k (pre ++ Recv s :: post) = serviceProcessor k (pre ++ post).
Proof.
  intros Hskip. induction pre as [|c pre IH]; intros k.
  - cbn [app serviceProcessor]. rewrite Hskip.
    by destruct (serviceProcessor k post).
  - destruct c as [|e]; [done|].
    cbn [app serviceProcessor].
    destruct (processEvent k e) as [k1 out]. by rewrite IH.
Qed.

(** ** The claims about the classifier *)

(** C1: an Added notification of a service with an assigned cluster address
    and a name other than "kubernetes" makes the classifier send exactly one
    request: a create request for the standard identity, with the declared
    port numbers in declaration order, no endpoint, and the five names
    name, name.namespace, name.namespace.svc, name.namespace.svc.cluster,
    name.namespace.svc.cluster.local in this order. *)
Theorem ordinary_added_one_create `{Interface K} (k : K)
    (name ns ip : string) (ports : list ServicePort.t) :
  ip <> "None" ->
  name <> "kubernetes" ->
  processEvent k
    (ServiceEvent.mk EventAdded (Service.mk name ns (ServiceSpec.mk ports ip)))
  = (k, [ createIntent (ServiceInfo.mk name ns ServiceTypeStandard)
            (map ServicePort.Port ports)
            None
            [ name;
              name +:+ "." +:+ ns;
              name +:+ "." +:+ ns +:+ ".svc";
              name +:+ "." +:+ ns +:+ ".svc.cluster";
              name +:+ "." +:+ ns +:+ ".svc.cluster.local" ] ]).
Proof.
  intros Hip Hname.
  rewrite processEvent_added by done.
  cbn [ServiceEvent.Service Service.Spec ServiceSpec.ClusterIP].
  rewrite decide_False by done.
  unfold identityOf. cbn [Service.Spec ServiceSpec.ClusterIP].
  by rewrite decide_False.
Qed.

Lemma ordinary_added_one_create_witness :
  "10.0.0.1" <> "None" /\ "web" <> "kubernetes" /\
  processEvent cluster (ServiceEvent.mk EventAdded web)
  = (cluster,
     [ createIntent (ServiceInfo.mk "web" "default" ServiceTypeStandard)
         [80%Z; 443%Z] None
         [ "web"; "web.default"; "web.default.svc"; "web.default.svc.cluster";
           "web.default.svc.cluster.local" ] ]).
Proof.
  split; [discriminate|]. split; [discriminate|].
  apply (ordinary_added_one_create cluster "web" "default" "10.0.0.1");
    discriminate.
Defined.

(** C2, as stated, fails.  For the headless service db with the ready pods
    pod-0 and pod-1 the requests sent are no rearrangement of the rooted
    fan-out: the first name of each is the bare service name.  And a
    headless service named "kubernetes" whose endpoints resolve to two pods
    gets no request at all. *)
Lemma decentralized_added_counterexample :
  ~ (snd (processEvent cluster (ServiceEvent.mk EventAdded db))
       ≡ₚ rootedFanOut db db_endpoints)
  /\ CoreV1_Endpoints_Get cluster "tools" "kubernetes"
     = (FakeClientset.mk (FakeClientset.tracker cluster)
          [("tools", "kubernetes")], inr db_endpoints)
  /\ length (podTargets db_endpoints) = 2
  /\ snd (processEvent cluster (ServiceEvent.mk EventAdded kube_headless)) = [].
Proof.
  split; [|by vm_compute].
  intros Hperm.
  assert (Hin : createIntent (identityOf db) (declaredPorts db)
                  (Some (PodInfo.mk "pod-0" "ns"))
                  [ "db"; "pod-0.db.ns"; "pod-0.db.ns.svc";
                    "pod-0.db.ns.svc.cluster"; "pod-0.db.ns.svc.cluster.local" ]
                ∈ rootedFanOut db db_endpoints).
  { rewrite <- Hperm. vm_compute. left. }
  vm_compute in Hin.
  repeat (apply elem_of_cons in Hin as [Hin|Hin]; [discriminate Hin|]).
  by apply elem_of_nil in Hin.
Qed.

(** C2, amended: an Added notification of a headless service whose name is
    not "kubernetes" and whose endpoints resolve makes the classifier send
    exactly one create request per ready address that refers to a pod, in
    the order of the subsets and addresses, and none for the other
    addresses.  Each carries the pod as endpoint and five names: the bare
    service name first, then pod.service.namespace and its three longer
    forms. *)
Theorem decentralized_added_fan_out `{Interface K} (k k' : K)
    (name ns : string) (ports : list ServicePort.t) (eps : Endpoints.t) :
  name <> "kubernetes" ->
  CoreV1_Endpoints_Get k ns name = (k', inr eps) ->
  let out :=
    map (fun ref =>
           let pod := ObjectReference.Name ref in
           createIntent (ServiceInfo.mk name ns ServiceTypeStatefulset)
             (map ServicePort.Port ports)
             (Some (PodInfo.mk pod (ObjectReference.Namespace ref)))
             [ name;
               pod +:+ "." +:+ name +:+ "." +:+ ns;
               pod +:+ "." +:+ name +:+ "." +:+ ns +:+ ".svc";
               pod +:+ "." +:+ name +:+ "." +:+ ns +:+ ".svc.cluster";
               pod +:+ "." +:+ name +:+ "." +:+ ns +:+ ".svc.cluster.local" ])
        (podTargets eps) in
  processEvent k
    (ServiceEvent.mk EventAdded
       (Service.mk name ns (ServiceSpec.mk ports "None")))
  = (k', out)
  /\ length out = length (podTargets eps).
Proof.
  intros Hname Hget out.
  split; [|by unfold out; rewrite length_map].
  rewrite processEvent_added by done.
  cbn [ServiceEvent.Service Service.Spec ServiceSpec.ClusterIP
       Service.Name Service.Namespace].
  rewrite decide_True by done. rewrite Hget.
  f_equal. unfold out. apply map_ext. intros ref.
  unfold podRequest, createIntent, identityOf, declaredPorts,
    Sprintf_dot, Sprintf_svc, Sprintf_cluster, Sprintf_local.
  cbn [Service.Spec ServiceSpec.ClusterIP Service.Name Service.Namespace
       ServiceInfo.Name ServiceInfo.Namespace ServiceSpec.Ports].
  rewrite decide_True by done.
  by rewrite !append_assoc.
Qed.

Lemma decentralized_added_fan_out_witness :
  "db" <> "kubernetes" /\
  CoreV1_Endpoints_Get cluster "ns" "db" = (clusterAsked, inr db_endpoints) /\
  processEvent cluster (ServiceEvent.mk EventAdded db)
  = (clusterAsked,
     [ createIntent (ServiceInfo.mk "db" "ns" ServiceTypeStatefulset)
         [5432%Z] (Some (PodInfo.mk "pod-0" "ns"))
         [ "db"; "pod-0.db.ns"; "pod-0.db.ns.svc"; "pod-0.db.ns.svc.cluster";
           "pod-0.db.ns.svc.cluster.local" ];
       createIntent (ServiceInfo.mk "db" "ns" ServiceTypeStatefulset)
         [5432%Z] (Some (PodInfo.mk "pod-1" "ns"))
         [ "db"; "pod-1.db.ns"; "pod-1.db.ns.svc"; "pod-1.db.ns.svc.cluster";
           "pod-1.db.ns.svc.cluster.local" ] ]).
Proof.
  assert (Hname : "db" <> "kubernetes") by discriminate.
  assert (Hget : CoreV1_Endpoints_Get cluster "ns" "db"
                 = (clusterAsked, inr db_endpoints)) by reflexivity.
  split; [exact Hname|]. split; [exact Hget|].
  exact (proj1 (decentralized_added_fan_out cluster clusterAsked "db" "ns"
                  [ServicePort.mk "pg" 5432] db_endpoints Hname Hget)).
Defined.

(** C3: a Deleted notification of a service whose name is not "kubernetes"
    makes the classifier send exactly one request, a delete request that
    carries the identity of the service.  This holds for either topology;
    the classifier is given no view of the table of tunnel entries, so the
    number of entries under the identity plays no part. *)
Theorem deleted_one_delete `{Interface K} (k : K) (svc : Service.t) :
  Service.Name svc <> "kubernetes" ->
  processEvent k (ServiceEvent.mk EventDeleted svc)
  = (k, [deleteIntent (identityOf svc)]).
Proof. intros Hname. by rewrite processEvent_deleted. Qed.

Lemma deleted_one_delete_witness :
  Service.Name db <> "kubernetes" /\
  Service.Name web <> "kubernetes" /\
  processEvent cluster (ServiceEvent.mk EventDeleted db)
  = (cluster,
     [deleteIntent (ServiceInfo.mk "db" "ns" ServiceTypeStatefulset)]) /\
  processEvent emptyCluster (ServiceEvent.mk EventDeleted web)
  = (emptyCluster,
     [deleteIntent (ServiceInfo.mk "web" "default" ServiceTypeStandard)]).
Proof.
  assert (Hdb : Service.Name db <> "kubernetes") by discriminate.
  assert (Hweb : Service.Name web <> "kubernetes") by discriminate.
  split; [exact Hdb|]. split; [exact Hweb|]. split.
  - exact (deleted_one_delete cluster db Hdb).
  - exact (deleted_one_delete emptyCluster web Hweb).
Defined.

(** C5: a notification of any kind about a service named "kubernetes" makes
    the classifier send nothing and leaves the client alone; and wherever
    such a notification stands in a run of the loop, the run is the run
    without it. *)
Theorem reserved_name_no_intent `{Interface K} (s : ServiceEvent.t) :
  Service.Name (ServiceEvent.Service s) = "kubernetes" ->
  (forall k : K, processEvent k s = (k, []))
  /\ (forall (k : K) (pre post : list SelectCase),
        serviceProcessor k (pre ++ Recv s :: post)
        = serviceProcessor k (pre ++ post)).
Proof.
  intros Hname.
  assert (Hskip : forall k : K, processEvent k s = (k, []))
    by (intros k; by apply processEvent_reserved).
  split; [exact Hskip|].
  intros k pre post. by apply serviceProcessor_skip.
Qed.

Lemma reserved_name_no_intent_witness :
  Service.Name kube_headless = "kubernetes" /\
  processEvent cluster (ServiceEvent.mk EventAdded kube_headless)
  = (cluster, []) /\
  processEvent cluster (ServiceEvent.mk EventDeleted kube_headless)
  = (cluster, []) /\
  serviceProcessor cluster
    ([Recv (ServiceEvent.mk EventAdded web)]
       ++ Recv (ServiceEvent.mk EventDeleted kube_headless)
       :: [Recv (ServiceEvent.mk EventDeleted web); CtxDone])
  = serviceProcessor cluster
      ([Recv (ServiceEvent.mk EventAdded web)]
         ++ [Recv (ServiceEvent.mk EventDeleted web); CtxDone]).
Proof.
  split; [reflexivity|]. split; [|split].
  - exact (proj1 (reserved_name_no_intent
                    (ServiceEvent.mk EventAdded kube_headless) eq_refl) cluster).
  - exact (proj1 (reserved_name_no_intent
                    (ServiceEvent.mk EventDeleted kube_headless) eq_refl) cluster).
  - exact (proj2 (reserved_name_no_intent
                    (ServiceEvent.mk EventDeleted kube_headless) eq_refl)
             cluster _ _).
Defined.

(** C6: when the endpoint lookup for an Added notification of a headless
    service fails, the classifier sends nothing for that notification and
    goes on with the next one: the run continues from the client the lookup
    left behind, exactly as it would have started there.  The run has no
    place for an error. *)
Theorem resolution_failure_skipped `{Interface K} (k k' : K)
    (name ns : string) (ports : list ServicePort.t) (err : error) :
  name <> "kubernetes" ->
  CoreV1_Endpoints_Get k ns name = (k', inl err) ->
  let s := ServiceEvent.mk EventAdded
             (Service.mk name ns (ServiceSpec.mk ports "None")) in
  processEvent k s = (k', [])
  /\ (forall rest : list SelectCase,
        serviceProcessor k (Recv s :: rest) = serviceProcessor k' rest).
Proof.
  intros Hname Hget s.
  assert (Hstep : processEvent k s = (k', [])).
  { unfold s. rewrite processEvent_added by done.
    cbn [ServiceEvent.Service Service.Spec ServiceSpec.ClusterIP
         Service.Name Service.Namespace].
    rewrite decide_True by done. by rewrite Hget. }
  split; [exact Hstep|].
  intros rest. cbn [serviceProcessor]. rewrite Hstep.
  by destruct (serviceProcessor k' rest).
Qed.

Lemma resolution_failure_skipped_witness :
  "db" <> "kubernetes" /\
  CoreV1_Endpoints_Get emptyCluster "ns" "db"
  = (emptyClusterAsked, inl "endpoints not found: db") /\
  processEvent emptyCluster (ServiceEvent.mk EventAdded db) = (emptyClusterAsked, []) /\
  serviceProcessor emptyCluster
    [Recv (ServiceEvent.mk EventAdded db); Recv (ServiceEvent.mk EventAdded web)]
  = serviceProcessor emptyClusterAsked [Recv (ServiceEvent.mk EventAdded web)].
Proof.
  assert (Hname : "db" <> "kubernetes") by discriminate.
  assert (Hget : CoreV1_Endpoints_Get emptyCluster "ns" "db"
                 = (emptyClusterAsked, inl "endpoints not found: db")) by reflexivity.
  split; [exact Hname|]. split; [exact Hget|]. split.
  - exact (proj1 (resolution_failure_skipped emptyCluster emptyClusterAsked "db" "ns"
                    [ServicePort.mk "pg" 5432] _ Hname Hget)).
  - exact (proj2 (resolution_failure_skipped emptyCluster emptyClusterAsked "db" "ns"
                    [ServicePort.mk "pg" 5432] _ Hname Hget) _).
Defined.

(** C8: the identity the classifier builds for a service has the statefulset
    type exactly when the cluster address of the service is "None", and the
    standard type exactly when it is not; and every request sent for a
    notification of the service carries that identity. *)
Theorem topology_by_cluster_ip `{Interface K} (k : K) (kind : EventType)
    (svc : Service.t) :
  let info := setType svc (newInfo svc) in
  (ServiceInfo.Type_ info = ServiceTypeStatefulset
     <-> ServiceSpec.ClusterIP (Service.Spec svc) = "None")
  /\ (ServiceInfo.Type_ info = ServiceTypeStandard
        <-> ServiceSpec.ClusterIP (Service.Spec svc) <> "None")
  /\ Forall (fun r => requestService r = Some info)
            (snd (processEvent k (ServiceEvent.mk kind svc))).
Proof.
  intros info. subst info. rewrite setType_identity. repeat split.
  - unfold identityOf. cbn [ServiceInfo.Type_]. by case_decide.
  - intros Hip. unfold identityOf. cbn [ServiceInfo.Type_].
    by rewrite decide_True.
  - unfold identityOf. cbn [ServiceInfo.Type_]. by case_decide.
  - intros Hip. unfold identityOf. cbn [ServiceInfo.Type_].
    by rewrite decide_False.
  - destruct (decide (Service.Name svc = "kubernetes")) as [Hname|Hname].
    { by rewrite processEvent_reserved. }
    destruct (decide (kind = EventAdded)) as [->|Hadd].
    + rewrite processEvent_added by done.
      cbn [ServiceEvent.Service]. cbn zeta.
      case_decide; [|by repeat constructor].
      destruct (CoreV1_Endpoints_Get _ _ _) as [k' [err|eps]]; [done|].
      cbn [snd]. apply Forall_map, Forall_forall. by intros ref _.
    + destruct (decide (kind = EventDeleted)) as [->|Hdel].
      * rewrite processEvent_deleted by done. by repeat constructor.
      * unfold processEvent. cbn [newInfo ServiceInfo.Name ServiceEvent.Service
                                  ServiceEvent.EventType].
        rewrite decide_False by done. cbn zeta.
        rewrite (decide_False _ _ Hadd). by rewrite (decide_False _ _ Hdel).
Qed.

(** C10: every request sent for an Added notification of a headless service
    is a create request whose ports are the declared port numbers of the
    service, in declaration order, whatever the endpoints are. *)
Theorem fan_out_same_ports `{Interface K} (k : K)
    (name ns : string) (ports : list ServicePort.t) :
  Forall (fun r =>
            CreatePortForwardRequest.Ports
              <$> PortForwardRequest.CreatePortForwardRequest r
            = Some (map ServicePort.Port ports))
         (snd (processEvent k
                 (ServiceEvent.mk EventAdded
                    (Service.mk name ns (ServiceSpec.mk ports "None"))))).
Proof.
  destruct (decide (name = "kubernetes")) as [Hname|Hname].
  { by rewrite processEvent_reserved. }
  rewrite processEvent_added by done.
  cbn [ServiceEvent.Service Service.Spec ServiceSpec.ClusterIP
       Service.Name Service.Namespace].
  rewrite decide_True by done.
  destruct (CoreV1_Endpoints_Get _ _ _) as [k' [err|eps]]; [done|].
  cbn [snd]. apply Forall_map, Forall_forall. by intros ref _.
Qed.

(** ** The query surface *)

Section OrchestratorFacts.
Context {K RestConfig FieldLogger S : Type}.
Variable zeroStatus : S.

Local Abbreviation Proxier := (Proxier.t K RestConfig FieldLogger S).

(** The copying loop, started at index [i] with the first [i] statuses in
    place, ends with the statuses of all entries and never leaves the
    slices. *)
Lemma copyStatuses_from (conns : list (PortForwardConnection.t S))
    (m i : nat) (cur : list S) :
  i + m = length conns ->
  length cur = length conns ->
  take i cur = PortForwardConnection.Status <$> take i conns ->
  copyStatuses conns (seq i m) cur
  = Returns (PortForwardConnection.Status <$> conns).
Proof.
  revert i cur. induction m as [|m IH]; intros i cur Hlen Hcur Htake.
  - cbn [seq copyStatuses]. f_equal.
    rewrite !take_ge in Htake by lia. exact Htake.
  - cbn [seq copyStatuses].
    destruct (lookup_lt_is_Some_2 conns i) as [c Hc]; [lia|].
    rewrite Hc. rewrite decide_True by lia.
    apply IH; [lia | by rewrite length_insert |].
    rewrite (take_S_r conns i c Hc), fmap_app.
    rewrite (take_S_r _ i (PortForwardConnection.Status c))
      by (apply list_lookup_insert_eq; lia).
    rewrite take_insert_ge by lia. by rewrite Htake.
Qed.

Lemma connStatusesOf_spec (w : worker.t S) (serv : ServiceInfo.t) :
  connStatusesOf zeroStatus w serv
  = Returns (PortForwardConnection.Status
               <$> default [] (worker.portForwards w !! serv)).
Proof.
  unfold connStatusesOf. cbn zeta.
  apply copyStatuses_from; [lia | by rewrite length_replicate |].
  by rewrite !take_0.
Qed.

Lemma listLoop_spec (w : worker.t S) (keys : list ServiceInfo.t)
    (statuses : list (ServiceStatus.t S)) :
  listLoop zeroStatus w keys statuses
  = Returns (statuses ++
       map (fun serv =>
              ServiceStatus.mk serv
                (PortForwardConnection.Status
                   <$> default [] (worker.portForwards w !! serv)))
           keys)%list.
Proof.
  revert statuses. induction keys as [|serv keys IH]; intros statuses.
  - cbn. by rewrite app_nil_r.
  - cbn [listLoop map]. rewrite connStatusesOf_spec, IH.
    by rewrite <- app_assoc.
Qed.

(** With a worker in place [List] returns, without an error, one record per
    key of the table, with as many statuses as the key has entries, each the
    status of its entry. *)
Lemma List_running (p : Proxier) (w : worker.t S) :
  Proxier.worker p = Some w ->
  List zeroStatus p
  = Returns (map (fun kv => ServiceStatus.mk (fst kv)
                              (PortForwardConnection.Status <$> snd kv))
                 (map_to_list (worker.portForwards w)),
             None).
Proof.
  intros Hw. unfold List. rewrite Hw, listLoop_spec.
  cbn [app]. do 2 f_equal. rewrite map_map.
  apply map_ext_in. intros [serv conns] Hin.
  apply list_elem_of_In, elem_of_map_to_list in Hin.
  cbn [fst snd]. by rewrite Hin.
Qed.

Lemma List_not_running (p : Proxier) :
  Proxier.worker p = None ->
  List zeroStatus p = Returns ([], Some errNotRunning).
Proof. intros Hw. unfold List. by rewrite Hw. Qed.

(** No step of the proxier's life takes the worker away. *)
Lemma step_keeps_worker (st st' : Proxier * StartPc) :
  step st st' ->
  is_Some (Proxier.worker (fst st)) ->
  is_Some (Proxier.worker (fst st')).
Proof.
  intros Hstep Hw.
  destruct Hstep as [p r p' err Hs|p r p' Hs| | | |]; cbn [fst] in *; try done.
  - destruct r; simplify_eq/=; done.
  - destruct r; simplify_eq/=; done.
Qed.

Lemma steps_keep_worker (st st' : Proxier * StartPc) :
  rtc step st st' ->
  is_Some (Proxier.worker (fst st)) ->
  is_Some (Proxier.worker (fst st')).
Proof.
  induction 1 as [|st1 st2 st3 Hstep _ IH]; [done|].
  intros Hw. by apply IH, (step_keeps_worker st1 st2).
Qed.

End OrchestratorFacts.

(** C7: as long as the proxier has no worker, which is so from
    [NewProxier] until [Start] has stored one, [List] returns (it does not
    panic) the empty result together with the error "proxier not running".
    A [Start] that fails in its setup returns the construction error and
    leaves the proxier as it was, so [List] answers the same afterwards. *)
Theorem list_before_setup {K RestConfig FieldLogger S : Type} (zeroStatus : S)
    (p : Proxier.t K RestConfig FieldLogger S) (err : error) :
  Proxier.worker p = None ->
  List zeroStatus p = Returns ([], Some "proxier not running")
  /\ Start_setup p (inl err) = (p, Some err)
  /\ List zeroStatus (fst (Start_setup p (inl err)))
     = Returns ([], Some "proxier not running").
Proof.
  intros Hw. split; [by apply List_not_running|].
  split; [done|]. by apply List_not_running.
Qed.

Lemma list_before_setup_witness :
  Proxier.worker freshProxier = None /\
  List "" freshProxier = Returns ([], Some "proxier not running") /\
  Start_setup freshProxier (inl "no kubeconfig")
  = (freshProxier, Some "no kubeconfig") /\
  List "" (fst (Start_setup freshProxier (inl "no kubeconfig")))
  = Returns ([], Some "proxier not running").
Proof.
  split; [reflexivity|].
  exact (list_before_setup "" freshProxier "no kubeconfig" eq_refl).
Defined.

(** C9: once the setup of [Start] has stored a worker, [List] returns a
    result and no error in every state the proxier can reach from there:
    while [Start] waits for the classifier, while it waits for the
    forwarder, after it has returned, whatever the worker does to its
    table, and across later calls of [Start].  And [List] returns an error
    only when the proxier has no worker. *)
Theorem list_after_setup {K RestConfig FieldLogger S : Type} (zeroStatus : S)
    (p p' : Proxier.t K RestConfig FieldLogger S)
    (r : @NewPortForwarderResult S)
    (st : Proxier.t K RestConfig FieldLogger S * StartPc) :
  Start_setup p r = (p', None) ->
  rtc step (p', WaitHandlerDone) st ->
  (exists statuses, List zeroStatus (fst st) = Returns (statuses, None))
  /\ (forall (q : Proxier.t K RestConfig FieldLogger S) statuses e,
        List zeroStatus q = Returns (statuses, Some e) ->
        Proxier.worker q = None /\ e = "proxier not running").
Proof.
  intros Hsetup Hrun. split.
  - assert (Hw : is_Some (Proxier.worker (fst st))).
    { apply (steps_keep_worker _ _ Hrun). cbn [fst].
      destruct r; simplify_eq/=; done. }
    destruct Hw as [w Hw]. eexists. by apply List_running.
  - intros q statuses e Hq.
    destruct (Proxier.worker q) as [w|] eqn:Hw.
    + by rewrite (List_running zeroStatus q w Hw) in Hq.
    + rewrite (List_not_running zeroStatus q Hw) in Hq. by simplify_eq.
Qed.

Lemma list_after_setup_witness :
  Start_setup freshProxier (inr sampleWorker) = (startedProxier, None) /\
  rtc step (startedProxier, WaitHandlerDone) (laterProxier, Returned None) /\
  exists statuses, List "" laterProxier = Returns (statuses, None).
Proof.
  assert (Hsetup : Start_setup freshProxier (inr sampleWorker)
                   = (startedProxier, None)) by reflexivity.
  assert (Hrun : rtc step (startedProxier, WaitHandlerDone)
                   (laterProxier, Returned None)).
  { eapply rtc_l; [apply step_handler_done|].
    eapply rtc_l;
      [apply (step_worker startedProxier WaitPfDone sampleWorker
                sampleWorkerLater); reflexivity|].
    eapply rtc_l; [apply step_pf_done|]. apply rtc_refl. }
  split; [exact Hsetup|]. split; [exact Hrun|].
  exact (proj1 (list_after_setup "" freshProxier startedProxier
                  (inr sampleWorker) _ Hsetup Hrun)).
Defined.

(** ** The scenarios of the specification, run *)

Example added_web :
  Run.sent (serviceProcessor cluster [Recv (ServiceEvent.mk EventAdded web)])
  = [ createIntent (ServiceInfo.mk "web" "default" "") [80%Z; 443%Z] None
        (progressive "web" "default") ].
Proof. by vm_compute. Qed.

Example deleted_web_then_done :
  serviceProcessor cluster
    [ Recv (ServiceEvent.mk EventDeleted web); CtxDone;
      Recv (ServiceEvent.mk EventAdded web) ]
  = Run.mk cluster [deleteIntent (ServiceInfo.mk "web" "default" "")] true.
Proof. by vm_compute. Qed.

Example unknown_kind_ignored :
  processEvent cluster (ServiceEvent.mk "modified" web) = (cluster, []).
Proof. by vm_compute. Qed.

Example list_started :
  List "" startedProxier
  = Returns
      ([ ServiceStatus.mk (ServiceInfo.mk "web" "default" "") ["running"];
         ServiceStatus.mk (ServiceInfo.mk "db" "ns" "statefulset")
           ["running"; "waiting"] ], None).
Proof. by vm_compute. Qed.

Example added_db_ports :
  map (fun r => CreatePortForwardRequest.Ports
                  <$> PortForwardRequest.CreatePortForwardRequest r)
      (snd (processEvent cluster (ServiceEvent.mk EventAdded db)))
  = [Some [5432%Z]; Some [5432%Z]].
Proof. by vm_compute. Qed.

(** ** Further properties of the loop *)

Lemma length_append (a b : string) :
  String.length (a +:+ b) = String.length a + String.length b.
Proof.
  induction a as [|x a IH]; [done|].
  change (S (String.length (a +:+ b)) = S (String.length a + String.length b)).
  by rewrite IH.
Qed.

Section ClassifierInvariants.
Context `{Interface K}.

Lemma processEvent_other (k : K) (kind : EventType) (svc : Service.t) :
  kind <> EventAdded ->
  kind <> EventDeleted ->
  processEvent k (ServiceEvent.mk kind svc) = (k, []).
Proof.
  intros Hadd Hdel. unfold processEvent.
  cbn [newInfo ServiceInfo.Name ServiceEvent.Service ServiceEvent.EventType].
  case_decide; [done|]. cbn zeta.
  rewrite (decide_False _ _ Hadd). by rewrite (decide_False _ _ Hdel).
Qed.

(** Whatever holds of the three kinds of request the loop builds holds of
    every request a turn sends. *)
Lemma processEvent_Forall (P : PortForwardRequest.t -> Prop)
    (k : K) (s : ServiceEvent.t) :
  (forall svc ports,
     Service.Name svc <> "kubernetes" ->
     ServiceSpec.ClusterIP (Service.Spec svc) <> "None" ->
     P (standardRequest (identityOf svc) ports)) ->
  (forall svc ports ref,
     Service.Name svc <> "kubernetes" ->
     ServiceSpec.ClusterIP (Service.Spec svc) = "None" ->
     ObjectReference.Kind ref = "Pod" ->
     P (podRequest (identityOf svc) ports ref)) ->
  (forall svc,
     Service.Name svc <> "kubernetes" ->
     P (deleteRequest (identityOf svc))) ->
  Forall P (snd (processEvent k s)).
Proof.
  intros Hstd Hpod Hdel. destruct s as [kind svc].
  destruct (decide (Service.Name svc = "kubernetes")) as [Hname|Hname].
  { by rewrite processEvent_reserved. }
  destruct (decide (kind = EventAdded)) as [->|Hadd].
  - rewrite processEvent_added by done.
    cbn [ServiceEvent.Service]. cbn zeta.
    case_decide as Hip.
    + destruct (CoreV1_Endpoints_Get _ _ _) as [k' [err|eps]]; [done|].
      cbn [snd]. apply Forall_map, Forall_forall. intros ref Href.
      apply list_elem_of_filter in Href as [Hkind _]. by apply Hpod.
    + cbn [snd]. repeat constructor. by apply Hstd.
  - destruct (decide (kind = EventDeleted)) as [->|Hdel'].
    + rewrite processEvent_deleted by done. repeat constructor. by apply Hdel.
    + by rewrite processEvent_other.
Qed.

Lemma serviceProcessor_Forall (P : PortForwardRequest.t -> Prop)
    (k : K) (sel : list SelectCase) :
  (forall k s, Forall P (snd (processEvent k s))) ->
  Forall P (Run.sent (serviceProcessor k sel)).
Proof.
  intros Hturn. revert k. induction sel as [|c sel IH]; intros k; [done|].
  destruct c as [|s]; [done|].
  cbn [serviceProcessor].
  specialize (Hturn k s). destruct (processEvent k s) as [k1 out].
  cbn [Run.sent]. apply Forall_app. split; [exact Hturn | apply IH].
Qed.

End ClassifierInvariants.

(** X1: once the select takes the end of the context, the run is over:
    whatever would have arrived afterwards changes nothing, neither what was
    sent nor the client. *)
Theorem context_done_ends_run `{Interface K} (k : K)
    (pre post : list SelectCase) :
  serviceProcessor k (pre ++ CtxDone :: post)
  = serviceProcessor k (pre ++ [CtxDone]).
Proof.
  revert k. induction pre as [|c pre IH]; intros k; [done|].
  destruct c as [|s]; [done|].
  cbn [app serviceProcessor].
  destruct (processEvent k s) as [k1 out]. by rewrite IH.
Qed.

(** X2: [doneChan] is closed exactly in the runs whose select takes the
    end of the context at some turn. *)
Theorem done_closed_iff_context_done `{Interface K} (k : K)
    (sel : list SelectCase) :
  Run.doneClosed (serviceProcessor k sel) = true <-> CtxDone ∈ sel.
Proof.
  revert k. induction sel as [|c sel IH]; intros k.
  - cbn. split; [done|]. by intros ?%elem_of_nil.
  - destruct c as [|s].
    + cbn. split; [intros _; left | done].
    + cbn [serviceProcessor]. destruct (processEvent k s) as [k1 out].
      cbn [Run.doneClosed]. rewrite IH. split.
      * by right.
      * intros Hin. apply elem_of_cons in Hin as [Heq|Hin]; [done|exact Hin].
Qed.

(** X3: a run over one stretch of events followed by more turns is the run
    over the stretch, then the run over the rest from the client the stretch
    left: the requests of the stretch come first, in order, then those of
    the rest. *)
Theorem run_composes `{Interface K} (k : K) (pre post : list SelectCase) :
  Forall (fun c => c <> CtxDone) pre ->
  serviceProcessor k (pre ++ post)
  = Run.mk
      (Run.client
         (serviceProcessor (Run.client (serviceProcessor k pre)) post))
      (Run.sent (serviceProcessor k pre)
         ++ Run.sent
              (serviceProcessor (Run.client (serviceProcessor k pre)) post))
      (Run.doneClosed
         (serviceProcessor (Run.client (serviceProcessor k pre)) post)).
Proof. intros Hpre. by apply serviceProcessor_app. Qed.

Lemma run_composes_witness :
  Forall (fun c => c <> CtxDone) [Recv (ServiceEvent.mk EventAdded db)] /\
  serviceProcessor cluster
    ([Recv (ServiceEvent.mk EventAdded db)]
       ++ [Recv (ServiceEvent.mk EventDeleted web); CtxDone])
  = Run.mk clusterAsked
      (Run.sent (serviceProcessor cluster [Recv (ServiceEvent.mk EventAdded db)])
         ++ [deleteIntent (ServiceInfo.mk "web" "default" ServiceTypeStandard)])
      true.
Proof.
  assert (Hpre : Forall (fun c => c <> CtxDone)
                   [Recv (ServiceEvent.mk EventAdded db)])
    by (repeat constructor; discriminate).
  split; [exact Hpre|].
  exact (run_composes cluster [Recv (ServiceEvent.mk EventAdded db)]
           [Recv (ServiceEvent.mk EventDeleted web); CtxDone] Hpre).
Defined.

(** X4: an event whose kind is neither "added" nor "deleted" sends nothing
    and leaves the client alone, whatever the service. *)
Theorem other_kind_no_request `{Interface K} (k : K) (kind : EventType)
    (svc : Service.t) :
  kind <> EventAdded ->
  kind <> EventDeleted ->
  processEvent k (ServiceEvent.mk kind svc) = (k, []).
Proof. apply processEvent_other. Qed.

Lemma other_kind_no_request_witness :
  "modified" <> EventAdded /\ "modified" <> EventDeleted /\
  processEvent cluster (ServiceEvent.mk "modified" db) = (cluster, []).
Proof.
  split; [discriminate|]. split; [discriminate|].
  apply (other_kind_no_request cluster "modified" db); discriminate.
Defined.

(** X5: the loop asks the cluster for endpoints in one case only, an added
    event of a headless service not named "kubernetes", and then once, for
    the namespace and name of that service; in every other case the client
    is left as it was. *)
Theorem lookup_only_for_headless_added `{Interface K} (k : K)
    (kind : EventType) (svc : Service.t) :
  fst (processEvent k (ServiceEvent.mk kind svc))
  = if decide (kind = EventAdded
               /\ ServiceSpec.ClusterIP (Service.Spec svc) = "None"
               /\ Service.Name svc <> "kubernetes")
    then fst (CoreV1_Endpoints_Get k (Service.Namespace svc) (Service.Name svc))
    else k.
Proof.
  destruct (decide (Service.Name svc = "kubernetes")) as [Hname|Hname].
  { rewrite processEvent_reserved by done.
    rewrite decide_False; [done|]. by intros (_ & _ & ?). }
  destruct (decide (kind = EventAdded)) as [->|Hadd].
  - rewrite processEvent_added by done.
    cbn [ServiceEvent.Service]. cbn zeta.
    destruct (decide (ServiceSpec.ClusterIP (Service.Spec svc) = "None"))
      as [Hip|Hip].
    + rewrite decide_True by done.
      by destruct (CoreV1_Endpoints_Get _ _ _) as [k' [err|eps]].
    + rewrite decide_False; [done|]. by intros (_ & ? & _).
  - rewrite decide_False by (by intros (? & _ & _)).
    destruct (decide (kind = EventDeleted)) as [->|Hdel].
    + by rewrite processEvent_deleted.
    + by rewrite processEvent_other.
Qed.

(** X6: in every run, each request sent has exactly one of its two fields
    set, and the identity it carries is never named "kubernetes" and has one
    of the two service types. *)
Theorem sent_requests_tagged `{Interface K} (k : K) (sel : list SelectCase) :
  Forall (fun r =>
            exists info,
              (   (exists ports endpoint hostnames,
                     r = createIntent info ports endpoint hostnames)
               \/ r = deleteIntent info)
              /\ ServiceInfo.Name info <> "kubernetes"
              /\ (   ServiceInfo.Type_ info = ServiceTypeStandard
                  \/ ServiceInfo.Type_ info = ServiceTypeStatefulset))
         (Run.sent (serviceProcessor k sel)).
Proof.
  assert (Htype : forall svc,
            ServiceInfo.Type_ (identityOf svc) = ServiceTypeStandard
            \/ ServiceInfo.Type_ (identityOf svc) = ServiceTypeStatefulset).
  { intros svc. unfold identityOf. cbn [ServiceInfo.Type_].
    case_decide; [by right | by left]. }
  apply serviceProcessor_Forall. intros k0 s.
  apply processEvent_Forall.
  - intros svc ports Hname _. exists (identityOf svc).
    split; [left; by eexists _, _, _|]. split; [exact Hname | apply Htype].
  - intros svc ports ref Hname _ _. exists (identityOf svc).
    split; [left; by eexists _, _, _|]. split; [exact Hname | apply Htype].
  - intros svc Hname. exists (identityOf svc).
    split; [by right|]. split; [exact Hname | apply Htype].
Qed.

(** X7: in every run, each create request sent has five hostnames, the
    first of which is the name of the service, and it names a pod as its
    endpoint exactly when its identity has the statefulset type. *)
Theorem sent_creates_shape `{Interface K} (k : K) (sel : list SelectCase) :
  Forall (fun r =>
            forall c,
              PortForwardRequest.CreatePortForwardRequest r = Some c ->
              length (CreatePortForwardRequest.Hostnames c) = 5
              /\ head (CreatePortForwardRequest.Hostnames c)
                 = Some (ServiceInfo.Name (CreatePortForwardRequest.Service c))
              /\ (is_Some (CreatePortForwardRequest.Endpoint c)
                  <-> ServiceInfo.Type_ (CreatePortForwardRequest.Service c)
                      = ServiceTypeStatefulset))
         (Run.sent (serviceProcessor k sel)).
Proof.
  apply serviceProcessor_Forall. intros k0 s.
  apply processEvent_Forall.
  - intros svc ports _ Hip c [= <-].
    cbn [CreatePortForwardRequest.Hostnames CreatePortForwardRequest.Service
         CreatePortForwardRequest.Endpoint].
    split; [done|]. split; [done|].
    unfold identityOf. cbn [ServiceInfo.Type_]. rewrite decide_False by done.
    split; [by intros [? ?] | done].
  - intros svc ports ref _ Hip _ c [= <-].
    cbn [CreatePortForwardRequest.Hostnames CreatePortForwardRequest.Service
         CreatePortForwardRequest.Endpoint].
    split; [done|]. split; [done|].
    unfold identityOf. cbn [ServiceInfo.Type_]. rewrite decide_True by done.
    split; [done | by eexists].
  - by intros svc _ c.
Qed.

(** Five strings of strictly growing length are pairwise different. *)
Lemma NoDup_growing (a b c d e : string) :
  String.length a < String.length b ->
  String.length b < String.length c ->
  String.length c < String.length d ->
  String.length d < String.length e ->
  NoDup [a; b; c; d; e].
Proof.
  intros Hab Hbc Hcd Hde.
  repeat (apply NoDup_cons; split);
    [ .. | apply NoDup_nil_2 ];
    rewrite ?not_elem_of_cons; repeat split;
    try apply not_elem_of_nil;
    intros Heq; apply (f_equal String.length) in Heq; lia.
Qed.

(** X8: in every run, the hostnames of each create request sent are
    pairwise different. *)
Theorem sent_hostnames_distinct `{Interface K} (k : K)
    (sel : list SelectCase) :
  Forall (fun r =>
            forall c,
              PortForwardRequest.CreatePortForwardRequest r = Some c ->
              NoDup (CreatePortForwardRequest.Hostnames c))
         (Run.sent (serviceProcessor k sel)).
Proof.
  apply serviceProcessor_Forall. intros k0 s.
  apply processEvent_Forall.
  - intros svc ports _ _ c [= <-].
    cbn [CreatePortForwardRequest.Hostnames].
    unfold Sprintf_dot, Sprintf_svc, Sprintf_cluster, Sprintf_local.
    apply NoDup_growing; rewrite !length_append; cbn [String.length]; lia.
  - intros svc ports ref _ _ _ c [= <-].
    cbn [CreatePortForwardRequest.Hostnames].
    unfold Sprintf_dot, Sprintf_svc, Sprintf_cluster, Sprintf_local.
    apply NoDup_growing; rewrite !length_append; cbn [String.length]; lia.
  - by intros svc _ c.
Qed.

Lemma forAddresses_app info ports (l1 l2 : list EndpointAddress.t) :
  forAddresses info ports (l1 ++ l2)
  = (forAddresses info ports l1 ++ forAddresses info ports l2)%list.
Proof.
  rewrite !forAddresses_filter. by rewrite omap_app, filter_app, map_app.
Qed.

(** X9: the fan-out reads the ready addresses only, one after the other:
    how they are grouped into subsets makes no difference, and neither do
    the addresses that are not ready. *)
Theorem fan_out_flat (info : ServiceInfo.t) (ports : list Z)
    (subsets : list EndpointSubset.t) :
  forSubsets info ports subsets
  = forAddresses info ports
      (concat (map EndpointSubset.Addresses subsets)).
Proof.
  induction subsets as [|s rest IH]; [done|].
  cbn [forSubsets map concat]. by rewrite forAddresses_app, IH.
Qed.

(** ** Further properties of the query surface *)

(** X10: Go leaves the order in which the range visits the keys of the map
    open.  In whatever order the loop of [List] visits them, it does not
    panic and it builds the same records, up to their order. *)
Theorem list_any_visiting_order {S : Type} (zeroStatus : S) (w : worker.t S)
    (keys : list ServiceInfo.t) :
  keys ≡ₚ (map_to_list (worker.portForwards w)).*1 ->
  exists statuses statuses',
    listLoop zeroStatus w keys [] = Returns statuses
    /\ listLoop zeroStatus w (map_to_list (worker.portForwards w)).*1 []
       = Returns statuses'
    /\ statuses ≡ₚ statuses'.
Proof.
  intros Hperm. rewrite !listLoop_spec. cbn [app].
  eexists _, _. split; [done|]. split; [done|].
  change (map ?f ?l) with (f <$> l). by rewrite Hperm.
Qed.

Lemma list_any_visiting_order_witness :
  [identityOf db; identityOf web]
    ≡ₚ (map_to_list (worker.portForwards sampleWorker)).*1 /\
  exists statuses statuses',
    listLoop "" sampleWorker [identityOf db; identityOf web] []
    = Returns statuses
    /\ listLoop "" sampleWorker
         (map_to_list (worker.portForwards sampleWorker)).*1 []
       = Returns statuses'
    /\ statuses ≡ₚ statuses'.
Proof.
  assert (Hperm : [identityOf db; identityOf web]
                    ≡ₚ (map_to_list (worker.portForwards sampleWorker)).*1)
    by (vm_compute; apply perm_swap).
  split; [exact Hperm|].
  exact (list_any_visiting_order "" sampleWorker _ Hperm).
Defined.

(** X11: with a worker in place, [List] returns without an error one record
    per key of the table and no other: no identity twice, and a record for
    an identity with a list of statuses exactly when the table holds that
    identity with entries of these statuses, in their order. *)
Theorem list_reports_table {K RestConfig FieldLogger S : Type} (zeroStatus : S)
    (p : Proxier.t K RestConfig FieldLogger S) (w : worker.t S) :
  Proxier.worker p = Some w ->
  exists statuses,
    List zeroStatus p = Returns (statuses, None)
    /\ length statuses = size (worker.portForwards w)
    /\ NoDup (ServiceStatus.ServiceInfo <$> statuses)
    /\ (forall serv sts,
          ServiceStatus.mk serv sts ∈ statuses
          <-> exists conns,
                worker.portForwards w !! serv = Some conns
                /\ sts = PortForwardConnection.Status <$> conns).
Proof.
  intros Hw. eexists. split; [by apply List_running|].
  split; [|split].
  - by rewrite length_map, length_map_to_list.
  - change (map ?f ?l) with (f <$> l). rewrite <- list_fmap_compose.
    apply (NoDup_fst_map_to_list (worker.portForwards w)).
  - intros serv sts. change (map ?f ?l) with (f <$> l).
    rewrite list_elem_of_fmap. split.
    + intros ([serv' conns] & [= -> ->] & Hin).
      apply elem_of_map_to_list in Hin. by exists conns.
    + intros (conns & Hlook & ->). exists (serv, conns).
      split; [done|]. by apply elem_of_map_to_list.
Qed.

Lemma list_reports_table_witness :
  Proxier.worker startedProxier = Some sampleWorker /\
  exists statuses,
    List "" startedProxier = Returns (statuses, None)
    /\ length statuses = size (worker.portForwards sampleWorker)
    /\ NoDup (ServiceStatus.ServiceInfo <$> statuses)
    /\ (forall serv sts,
          ServiceStatus.mk serv sts ∈ statuses
          <-> exists conns,
                worker.portForwards sampleWorker !! serv = Some conns
                /\ sts = PortForwardConnection.Status <$> conns).
Proof.
  split; [reflexivity|].
  exact (list_reports_table "" startedProxier sampleWorker eq_refl).
Defined.

(** X12: [List] returns the empty result without an error exactly when the
    proxier has a worker whose table is empty; the empty result of a
    proxier without a worker always comes with the error. *)
Theorem list_empty_iff {K RestConfig FieldLogger S : Type} (zeroStatus : S)
    (p : Proxier.t K RestConfig FieldLogger S) :
  List zeroStatus p = Returns ([], None)
  <-> exists w, Proxier.worker p = Some w /\ worker.portForwards w = ∅.
Proof.
  split.
  - intros Hlist. destruct (Proxier.worker p) as [w|] eqn:Hw.
    + exists w. split; [done|].
      rewrite (List_running zeroStatus p w Hw) in Hlist.
      apply map_to_list_empty_iff.
      injection Hlist as Hnil. by apply map_eq_nil in Hnil.
    + by rewrite (List_not_running zeroStatus p Hw) in Hlist.
  - intros (w & Hw & Hempty).
    rewrite (List_running zeroStatus p w Hw), Hempty.
    by rewrite map_to_list_empty.
Qed.



(** ** Properties of the informer callbacks *)

(** X14: an update of a service sends nothing on [serviceChan]: wherever an
    update stands among the notifications, the delivery is the delivery
    without it. *)
Theorem updates_send_nothing (pre post : list Notification)
    (oldObj newObj : Object) :
  deliver (pre ++ OnUpdate oldObj newObj :: post) = deliver (pre ++ post).
Proof.
  induction pre as [|n pre IH].
  - cbn [app deliver onNotification]. by destruct (deliver post).
  - cbn [app deliver]. destruct (onNotification n); [|done]. by rewrite IH.
Qed.

(** X15: the callbacks turn the additions and deletions of services into
    added and deleted events, one for one and in order, until a callback is
    handed an object that is not a service; that callback panics before it
    sends, and nothing is sent afterwards. *)
Theorem foreign_object_panics (pre post : list Notification)
    (typeName : string) (n : Notification) :
  Forall (fun m => match m with
                   | OnAdd (ForeignObject _) | OnDelete (ForeignObject _) => False
                   | _ => True
                   end) pre ->
  n = OnAdd (ForeignObject typeName) \/ n = OnDelete (ForeignObject typeName) ->
  deliver pre
  = (omap (fun m => match m with
                    | OnAdd (ServiceObject svc) =>
                        Some (ServiceEvent.mk EventAdded svc)
                    | OnDelete (ServiceObject svc) =>
                        Some (ServiceEvent.mk EventDeleted svc)
                    | _ => None
                    end) pre, false)
  /\ deliver (pre ++ n :: post) = (fst (deliver pre), true).
Proof.
  intros Hpre Hn.
  assert (Hpanic : onNotification n = Panics) by (by destruct Hn as [->| ->]).
  induction Hpre as [|m pre Hm Hpre IH].
  - cbn [app deliver omap list_omap fst]. by rewrite Hpanic.
  - destruct IH as [IH1 IH2].
    destruct m as [[svc|ty]|oldObj newObj|[svc|ty]]; try done;
      cbn [app deliver onNotification AddFunc DeleteFunc assertService
           omap list_omap];
      rewrite IH2, IH1; cbn [fst]; done.
Qed.

Lemma foreign_object_panics_witness :
  Forall (fun m => match m with
                   | OnAdd (ForeignObject _) | OnDelete (ForeignObject _) => False
                   | _ => True
                   end)
         [OnAdd (ServiceObject web);
          OnUpdate (ServiceObject web) (ServiceObject db)] /\
  deliver [OnAdd (ServiceObject web);
           OnUpdate (ServiceObject web) (ServiceObject db)]
  = ([ServiceEvent.mk EventAdded web], false) /\
  deliver ([OnAdd (ServiceObject web);
            OnUpdate (ServiceObject web) (ServiceObject db)]
             ++ OnDelete (ForeignObject "cache.DeletedFinalStateUnknown")
             :: [OnAdd (ServiceObject db)])
  = ([ServiceEvent.mk EventAdded web], true).
Proof.
  assert (Hpre : Forall (fun m => match m with
                    | OnAdd (ForeignObject _)
                    | OnDelete (ForeignObject _) => False
                    | _ => True
                    end)
                   [OnAdd (ServiceObject web);
                    OnUpdate (ServiceObject web) (ServiceObject db)])
    by (repeat constructor).
  split; [exact Hpre|].
  exact (foreign_object_panics _ [OnAdd (ServiceObject db)]
           "cache.DeletedFinalStateUnknown" _ Hpre (or_intror eq_refl)).
Defined.
